(** * system_controller.py: command admission and dispatch

    A shallow embedding of [SystemController] from
    [src/system_controller.py]: the freshness test [is_command_fresh], the
    shell action [run_custom], the registry of handlers, and
    [process_command], which filters an incoming record and routes it; and
    of what runs before the first record: [install_dependencies], the
    constructor, [setup_firebase] and [setup_signal_handlers].  The
    listening loop of [start] and the signal handler [shutdown] are not
    embedded.

    Conventions of the embedding.
    - A [datetime] is the number of microseconds (the resolution of Python's
      [datetime]) between the Unix epoch and the instant it denotes; a
      [timedelta] is a signed number of microseconds.  [datetime.now()] and
      [datetime.fromtimestamp] both build naive local datetimes; the UTC
      offset of the process, [utcoffset], is taken as fixed, so their
      difference is the difference of the instants, and the offset only
      moves the range of timestamps that [fromtimestamp] converts.
    - Every call of [datetime.now()] is an input of the function that makes
      it: [process_command] reads the clock twice (line 76, inside
      [is_command_fresh], and line 161) and takes two readings.
    - The incoming record is the JSON object of the notification, with the
      field types of the data model: [action] and [command] are strings,
      [timestamp] is an integer; each may be missing.
    - [timestamp / 1000] is a float in Python, rounded to the microsecond by
      [fromtimestamp]; the embedding takes the quotient exactly (which it is
      for integer milliseconds up to 2^33 seconds, the year 2242).
    - The host is an oracle [os] that gives, for each call of
      [subprocess.run], either a completed process or the exception raised.
      What a computation does to the outside world is the list of events it
      emits, oldest first; [print] is taken never to fail. *)

From Stdlib Require Import ZArith QArith Lia Bool List Ascii String.
From stdpp Require Import base option list gmap strings.
Import ListNotations.

Local Open Scope string_scope.
Local Open Scope Z_scope.

(** ** Time *)

Definition datetime := Z.
Definition timedelta := Z.

(** [timedelta(seconds=n)] *)
Definition timedelta_seconds (n : Z) : timedelta := n * 1000000.

(** [timedelta.total_seconds()], as the rational it denotes. *)
Definition total_seconds (d : timedelta) : Q := (inject_Z d / inject_Z 1000000)%Q.

(** Python's [x < y] on the numbers met here. *)
Definition Qltb (x y : Q) : bool := negb (Qle_bool y x).

(** Line 33: [COMMAND_COOLDOWN = 2] (seconds). *)
Definition COMMAND_COOLDOWN : Q := inject_Z 2.

(** The literal [0.5] of line 162. *)
Definition MIN_INTERVAL : Q := (1 # 2)%Q.

(** [datetime.MINYEAR] is 1 and [datetime.MAXYEAR] is 9999:
    0001-01-01T00:00:00 and 9999-12-31T23:59:59.999999, in microseconds from
    the epoch (719162 days before it, 2932897 days after it). *)
Definition DATETIME_MIN : datetime := - (719162 * 86400 * 1000000).
Definition DATETIME_MAX : datetime := 2932897 * 86400 * 1000000 - 1.

(** [max_fold_seconds] of [datetime.py]: 24 hours. *)
Definition max_fold_seconds : Z := 24 * 3600.

(** ** Exceptions and results *)

(** The exceptions that reach this code.  [fromtimestamp] raises
    [ValueError] for a year outside [MINYEAR .. MAXYEAR] (and, much further
    out, [OverflowError] or [OSError]); [subprocess.run] raises what the host
    makes it raise ([FileNotFoundError], [TimeoutExpired], ...).  All are
    subclasses of [Exception], which is what the handler of line 144
    catches. *)
Inductive exn : Type :=
| TimestampError
| HostError (class_name : string) (message : string).

(** [str(e)] *)
Definition str (e : exn) : string :=
  match e with
  | TimestampError => "year is out of range"
  | HostError _ message => message
  end.

Inductive result (A : Type) : Type :=
| Return (a : A)
| Raise (e : exn).
Arguments Return {A} a.
Arguments Raise {A} e.

(** ** The controller, the host and the effects *)

(** The two fields [__init__] sets (lines 38-39). *)
Record SystemController : Type :=
  { last_command_time : datetime; running : bool }.

(** The state [__init__] leaves when it returns; [now] is the reading of
    [datetime.now()] on line 38. *)
Definition init (now : datetime) : SystemController :=
  {| last_command_time := now - timedelta_seconds 10; running := true |}.

(** The two shapes of [subprocess.run] in the file:
    [run(argv, capture_output=True)] and
    [run(command, shell=True, capture_output=True, text=True, timeout=t)]. *)
Inductive invocation : Type :=
| Exec (argv : list string)
| Shell (command : string) (timeout : Z).

Record CompletedProcess : Type := { returncode : Z; stdout : string }.

Definition host := invocation -> result CompletedProcess.

Inductive event : Type :=
| Subprocess (i : invocation)
| Print (line : string).

(** A method of the controller: from the fields before the call to the
    events emitted, the value returned or the exception raised, and the
    fields after. *)
Record outcome (A : Type) : Type :=
  { emitted : list event; value : result A; self_after : SystemController }.
Arguments emitted {A} o.
Arguments value {A} o.
Arguments self_after {A} o.

Definition M (A : Type) : Type := SystemController -> outcome A.

#[global] Instance M_ret : MRet M := fun A a self =>
  {| emitted := []; value := Return a; self_after := self |}.

#[global] Instance M_bind : MBind M := fun A B k m self =>
  let o := m self in
  match value o with
  | Raise e => {| emitted := emitted o; value := Raise e; self_after := self_after o |}
  | Return a =>
      let o' := k a (self_after o) in
      {| emitted := emitted o ++ emitted o'; value := value o';
         self_after := self_after o' |}
  end.

(** [try: body / except Exception as e: handler(e)] *)
Definition try_except {A : Type} (body : M A) (handler : exn -> M A) : M A :=
  fun self =>
    let o := body self in
    match value o with
    | Return a => o
    | Raise e =>
        let o' := handler e (self_after o) in
        {| emitted := emitted o ++ emitted o'; value := value o';
           self_after := self_after o' |}
    end.

Definition lift {A : Type} (r : result A) : M A := fun self =>
  {| emitted := []; value := r; self_after := self |}.

Definition print (line : string) : M unit := fun self =>
  {| emitted := [Print line]; value := Return tt; self_after := self |}.

Definition subprocess_run (os : host) (i : invocation) : M CompletedProcess :=
  fun self => {| emitted := [Subprocess i]; value := os i; self_after := self |}.

Definition get_last_command_time : M datetime := fun self =>
  {| emitted := []; value := Return (last_command_time self); self_after := self |}.

Definition set_last_command_time (t : datetime) : M unit := fun self =>
  {| emitted := []; value := Return tt;
     self_after := {| last_command_time := t; running := running self |} |}.

(** ** Strings *)

(** ASCII white space, as [str.isspace] has it. *)
Definition isspace (c : ascii) : bool :=
  let n := Z.of_nat (nat_of_ascii c) in
  ((9 <=? n) && (n <=? 13)) || ((28 <=? n) && (n <=? 32)).

Fixpoint lstrip (s : string) : string :=
  match s with
  | String c s' => if isspace c then lstrip s' else s
  | EmptyString => EmptyString
  end.

Fixpoint rstrip (s : string) : string :=
  match s with
  | String c s' =>
      match rstrip s' with
      | EmptyString => if isspace c then EmptyString else String c EmptyString
      | r => String c r
      end
  | EmptyString => EmptyString
  end.

(** [str.strip()] *)
Definition strip (s : string) : string := rstrip (lstrip s).

(** Truth value of a string: false when empty. *)
Definition nonempty (s : string) : bool :=
  match s with EmptyString => false | _ => true end.

(** ** Handlers (lines 78-145) *)

Section Handlers.
Variable os : host.

Definition play_pause : M unit :=
  subprocess_run os (Exec ["playerctl"; "play-pause"]);;
  print "⏯️  Play/Pause".

Definition next_track : M unit :=
  subprocess_run os (Exec ["playerctl"; "next"]);;
  print "⏭️  Next Track".

Definition previous_track : M unit :=
  subprocess_run os (Exec ["playerctl"; "previous"]);;
  print "⏮️  Previous Track".

Definition volume_up : M unit :=
  subprocess_run os (Exec ["pactl"; "set-sink-volume"; "@DEFAULT_SINK@"; "+5%"]);;
  print "🔊 Volume Up".

Definition volume_down : M unit :=
  subprocess_run os (Exec ["pactl"; "set-sink-volume"; "@DEFAULT_SINK@"; "-5%"]);;
  print "🔉 Volume Down".

Definition mute : M unit :=
  subprocess_run os (Exec ["pactl"; "set-sink-mute"; "@DEFAULT_SINK@"; "toggle"]);;
  print "🔇 Mute Toggle".

Definition lock_screen : M unit :=
  subprocess_run os (Exec ["gnome-screensaver-command"; "-l"]);;
  subprocess_run os (Exec ["loginctl"; "lock-session"]);;
  print "🔒 Screen Locked".

Definition screenshot : M unit :=
  subprocess_run os (Exec ["gnome-screenshot"; "-i"]);;
  print "📸 Screenshot".

Definition open_browser : M unit :=
  subprocess_run os (Exec ["xdg-open"; "https://google.com"]);;
  print "🌐 Browser Opened".

Definition open_spotify : M unit :=
  subprocess_run os (Exec ["spotify"]);;
  print "🎵 Spotify Opened".

Definition open_terminal : M unit :=
  subprocess_run os (Exec ["gnome-terminal"]);;
  print "💻 Terminal Opened".

(** Lines 137-145. *)
Definition run_custom (command : string) : M unit :=
  try_except
    (result ← subprocess_run os (Shell command 10);
     print ("⚡ Custom: " +:+ command);;
     if nonempty (stdout result)
     then print ("   Output: " +:+ strip (stdout result))
     else mret tt)
    (fun e => print ("❌ Command failed: " +:+ str e)).

(** The dictionary of lines 167-180. *)
Definition handlers : gmap string (M unit) :=
  list_to_map
    [ ("play", play_pause);
      ("pause", play_pause);
      ("next", next_track);
      ("previous", previous_track);
      ("volume_up", volume_up);
      ("volume_down", volume_down);
      ("mute", mute);
      ("lock", lock_screen);
      ("screenshot", screenshot);
      ("browser", open_browser);
      ("spotify", open_spotify);
      ("terminal", open_terminal) ].
End Handlers.

(** ** The incoming record and the routing (lines 166-187) *)

(** The dictionary handed to [process_command]: [data.get(k)] is the field,
    [None] when the key is missing. *)
Record CommandRecord : Type :=
  { action : option string; timestamp : option Z; command : option string }.

(** [not data]: the dictionary has no key (the three fields are the only
    keys a record has). *)
Definition is_empty (data : CommandRecord) : bool :=
  match action data, timestamp data, command data with
  | None, None, None => true
  | _, _, _ => false
  end.

(** [f"{action}"] *)
Definition format_action (a : option string) : string := default "None" a.

(** [handlers.get(action)]; [None] is not a key. *)
Definition handler_of (os : host) (a : option string) : option (M unit) :=
  a ≫= fun name => handlers os !! name.

(** [action == 'custom' and 'command' in data], giving [data['command']]. *)
Definition custom_command (data : CommandRecord) : option string :=
  if bool_decide (action data = Some "custom") then command data else None.

(** Lines 166-187: the routing that follows the two checks. *)
Definition dispatch (os : host) (data : CommandRecord) : M unit :=
  match handler_of os (action data) with
  | Some handler => handler
  | None =>
      match custom_command data with
      | Some c => run_custom os c
      | None => print ("❓ Unknown action: " +:+ format_action (action data))
      end
  end.

(** ** Startup (lines 37-63 and 214-231) *)

(** What can end a call at startup.  [sys.exit(code)] raises [SystemExit],
    which is not an [Exception]: [except Exception] lets it through. *)
Inductive stop : Type :=
| SystemExit (code : Z)
| Uncaught (e : exn).

Inductive signum : Type := SIGINT | SIGTERM.

(** What startup does to the outside world: what the handlers do ([print],
    [subprocess.run]), and [os.path.exists], [credentials.Certificate],
    [firebase_admin.initialize_app] and [signal.signal(s, self.shutdown)]. *)
Inductive startup_event : Type :=
| Host (e : event)
| PathExists (path : string)
| Certificate (path : string)
| InitializeApp (databaseURL : string)
| SignalHandler (s : signum).

Inductive ending (A : Type) : Type :=
| Done (a : A)
| Stopped (s : stop).
Arguments Done {A} a.
Arguments Stopped {A} s.

(** A function run at startup: the events, oldest first, and how it ends. *)
Definition P (A : Type) : Type := (list startup_event * ending A)%type.

#[global] Instance P_ret : MRet P := fun A a => ([], Done a).

#[global] Instance P_bind : MBind P := fun A B k m =>
  match snd m with
  | Stopped s => (fst m, Stopped s)
  | Done a => ((fst m ++ fst (k a))%list, snd (k a))
  end.

(** [try: body / except Exception as e: handler(e)]: a [SystemExit] raised
    in [body] is not caught. *)
Definition try_except_Exception {A : Type} (body : P A) (handler : exn -> P A) :
    P A :=
  match snd body with
  | Stopped (Uncaught e) =>
      ((fst body ++ fst (handler e))%list, snd (handler e))
  | _ => body
  end.

Definition sys_exit {A : Type} (code : Z) : P A := ([], Stopped (SystemExit code)).

Definition console (line : string) : P unit := ([Host (Print line)], Done tt).

Definition run (os : host) (i : invocation) : P CompletedProcess :=
  ([Host (Subprocess i)],
   match os i with
   | Return completed => Done completed
   | Raise e => Stopped (Uncaught e)
   end).

(** The file system and the Firebase library, as [setup_firebase] meets
    them: whether a path exists, and whether each of the two library calls
    returns or raises. *)
Record backing : Type :=
  { os_path_exists : string -> bool;
    credentials_Certificate : string -> result unit;
    initialize_app : string -> result unit }.

Definition call {A : Type} (ev : startup_event) (r : result A) : P A :=
  ([ev], match r with Return a => Done a | Raise e => Stopped (Uncaught e) end).

(** Lines 27 and 30. *)
Definition FIREBASE_CREDENTIALS_FILE : string := "firebase-credentials.json".
Definition DATABASE_URL : string :=
  "https://mydashboard-13727-default-rtdb.firebaseio.com".

(** Lines 43-58. *)
Definition setup_firebase (env : backing) : P unit :=
  try_except_Exception
    (found ← ([PathExists FIREBASE_CREDENTIALS_FILE],
               Done (os_path_exists env FIREBASE_CREDENTIALS_FILE));
     (if negb found
      then
        console ("❌ Error: " +:+ FIREBASE_CREDENTIALS_FILE +:+ " not found!");;
        console "📥 Download it from Firebase Console > Project Settings > Service Accounts";;
        sys_exit 1
      else mret tt);;
     call (Certificate FIREBASE_CREDENTIALS_FILE)
       (credentials_Certificate env FIREBASE_CREDENTIALS_FILE);;
     call (InitializeApp DATABASE_URL) (initialize_app env DATABASE_URL);;
     console "✅ Connected to Firebase!")
    (fun e =>
       console ("❌ Firebase Error: " +:+ str e);;
       sys_exit 1).

(** Lines 60-63. *)
Definition setup_signal_handlers : P unit :=
  ([SignalHandler SIGINT; SignalHandler SIGTERM], Done tt).

(** Lines 37-41; [now] is the reading of the clock on line 38. *)
Definition __init__ (env : backing) (now : datetime) : P SystemController :=
  let self := init now in
  setup_firebase env;;
  setup_signal_handlers;;
  mret self.

(** Lines 214-231. *)
Definition install_dependencies (os : host) : P unit :=
  console "🔧 Checking dependencies...";;
  result ← run os (Exec ["which"; "playerctl"]);
  (if negb (returncode result =? 0)
   then
     console "📦 Installing playerctl...";;
     run os (Exec ["sudo"; "apt-get"; "update"; "-qq"]);;
     run os (Exec ["sudo"; "apt-get"; "install"; "-y"; "-qq"; "playerctl"]);;
     console "✅ playerctl installed"
   else console "✅ playerctl already installed");;
  result ← run os (Exec ["which"; "pactl"]);
  if negb (returncode result =? 0)
  then console "⚠️  pactl not found. Install pulseaudio-utils for volume control."
  else mret tt.

(** [setup_firebase] gets through: the file is there and neither library
    call raises. *)
Definition connects (env : backing) : bool :=
  os_path_exists env FIREBASE_CREDENTIALS_FILE
  && match credentials_Certificate env FIREBASE_CREDENTIALS_FILE with
     | Return _ => true
     | Raise _ => false
     end
  && match initialize_app env DATABASE_URL with
     | Return _ => true
     | Raise _ => false
     end.

(** ** The freshness test and [process_command] *)

Section Controller.

(** The UTC offset of the local time zone, in seconds, taken as fixed. *)
Variable utcoffset : Z.

(** [datetime.fromtimestamp(t / 1000)] for an integer [t] of milliseconds.
    The local date must have a year in [MINYEAR .. MAXYEAR], and so must the
    local date [max_fold_seconds] earlier, which [fromtimestamp] also
    builds, to detect a fold. *)
Definition fromtimestamp_ms (t : Z) : result datetime :=
  let us := t * 1000 in
  let local := us + utcoffset * 1000000 in
  if (DATETIME_MIN + max_fold_seconds * 1000000 <=? local)
     && (local <=? DATETIME_MAX)
  then Return us
  else Raise TimestampError.

(** Python's truth value of an optional integer: [None] and [0] are false. *)
Definition truthy (timestamp : option Z) : bool :=
  match timestamp with
  | None => false
  | Some t => negb (t =? 0)
  end.

(** Lines 71-76.  [now] is the reading of [datetime.now()] on line 76. *)
Definition is_command_fresh (timestamp : option Z) (now : datetime) : result bool :=
  if negb (truthy timestamp) then Return false
  else
    match timestamp with
    | None => Return false
    | Some t =>
        match fromtimestamp_ms t with
        | Raise e => Raise e
        | Return cmd_time =>
            Return (Qltb (total_seconds (now - cmd_time)) COMMAND_COOLDOWN)
        end
    end.

(** Lines 148-187.  [now_fresh] is the reading of the clock inside
    [is_command_fresh] (line 76) and [now] the reading of line 161. *)
Definition process_command (os : host) (data : CommandRecord)
    (now_fresh now : datetime) : M unit :=
  if is_empty data then mret tt
  else
    fresh ← lift (is_command_fresh (timestamp data) now_fresh);
    if negb fresh then mret tt
    else
      last ← get_last_command_time;
      if Qltb (total_seconds (now - last)) MIN_INTERVAL then mret tt
      else
        set_last_command_time now;;
        dispatch os data.

(** The interval test of line 162, on the fields of the controller. *)
Definition interval_elapsed (self : SystemController) (now : datetime) : bool :=
  negb (Qltb (total_seconds (now - last_command_time self)) MIN_INTERVAL).

(** A record is accepted when both tests let it through. *)
Definition accepted (self : SystemController) (data : CommandRecord)
    (now_fresh now : datetime) : bool :=
  match is_command_fresh (timestamp data) now_fresh with
  | Return true => interval_elapsed self now
  | _ => false
  end.

(** The fields once line 164 has run. *)
Definition stamped (self : SystemController) (now : datetime) : SystemController :=
  {| last_command_time := now; running := running self |}.

(** The age of a record at a clock reading: the reading minus the instant
    its millisecond timestamp denotes. *)
Definition age (t : Z) (now : datetime) : timedelta := now - t * 1000.

(** The console lines of [run_custom] after the call of [subprocess.run],
    for each way the call can end. *)
Definition custom_report (command : string) (r : result CompletedProcess) :
    list event :=
  match r with
  | Return completed =>
      Print ("⚡ Custom: " +:+ command)
      :: (if nonempty (stdout completed)
          then [Print ("   Output: " +:+ strip (stdout completed))]
          else [])
  | Raise e => [Print ("❌ Command failed: " +:+ str e)]
  end.

(** What every handler of the registry does first, and what it leaves. *)
Definition calls_host_first (h : M unit) : Prop :=
  forall self,
    self_after (h self) = self /\
    exists i rest, emitted (h self) = Subprocess i :: rest.

(** The timestamps [datetime.fromtimestamp] accepts. *)
Definition representable (t : Z) : Prop :=
  DATETIME_MIN + max_fold_seconds * 1000000
  <= t * 1000 + utcoffset * 1000000
  <= DATETIME_MAX.

(** The names the interface lists as recognized. *)
Definition RECOGNIZED_ACTIONS : list string :=
  [ "play"; "pause"; "next"; "previous"; "volume_up"; "volume_down"; "mute";
    "lock"; "screenshot"; "browser"; "spotify"; "terminal"; "custom" ].

(** What a call that returns at once leaves: nothing emitted, no exception,
    the fields as they were. *)
Definition skipped (self : SystemController) : outcome unit :=
  {| emitted := []; value := Return tt; self_after := self |}.

(** One notification: the host as it is then, the record, and the two
    readings of the clock. *)
Record delivery : Type :=
  { at_host : host; payload : CommandRecord;
    read_fresh : datetime; read_now : datetime }.

Definition deliver (self : SystemController) (d : delivery) : outcome unit :=
  process_command (at_host d) (payload d) (read_fresh d) (read_now d) self.

(** The clock readings of the records accepted by successive calls of
    [process_command] on the same controller, oldest first. *)
Fixpoint admitted_stamps (self : SystemController) (ds : list delivery) :
    list datetime :=
  match ds with
  | [] => []
  | d :: ds' =>
      let self' := self_after (deliver self d) in
      if accepted self (payload d) (read_fresh d) (read_now d)
      then read_now d :: admitted_stamps self' ds'
      else admitted_stamps self' ds'
  end.

(** Each stamp is at least half a second after the one before it. *)
Fixpoint spaced (previous : datetime) (stamps : list datetime) : Prop :=
  match stamps with
  | [] => True
  | t :: rest => 500000 <= t - previous /\ spaced t rest
  end.

(** The controller after successive calls of [process_command]. *)
Fixpoint after_deliveries (self : SystemController) (ds : list delivery) :
    SystemController :=
  match ds with
  | [] => self
  | d :: ds' => after_deliveries (self_after (deliver self d)) ds'
  end.

(** The shape the handlers of lines 79-134 share: calls of the host one
    after the other, then one console line. *)
Fixpoint run_calls (os : host) (calls : list invocation) (line : string) :
    M unit :=
  match calls with
  | [] => print line
  | i :: rest => subprocess_run os i;; run_calls os rest line
  end.

Definition is_exec (i : invocation) : Prop := exists argv, i = Exec argv.

Definition completes (os : host) (i : invocation) : Prop :=
  exists completed, os i = Return completed.



(** A string made of white space only. *)
Fixpoint all_space (s : string) : bool :=
  match s with
  | EmptyString => true
  | String c s' => isspace c && all_space s'
  end.

(** Hosts and records used in the examples. *)
Definition quiet_host : host :=
  fun _ => Return {| returncode := 0; stdout := "" |}.
Definition failing_host : host :=
  fun _ => Raise (HostError "FileNotFoundError" "No such file or directory").
Definition echo_host : host :=
  fun _ => Return {| returncode := 1; stdout := "hi" |}.

(** A host without [playerctl]: [which] exits with status 1, every other
    program with status 0. *)
Definition bare_host : host := fun i =>
  match i with
  | Exec ("which" :: _) => Return {| returncode := 1; stdout := "" |}
  | _ => Return {| returncode := 0; stdout := "" |}
  end.
(** A host on which every command fails without output, and one on which
    every command prints an empty line. *)
Definition mute_failure_host : host :=
  fun _ => Return {| returncode := 1; stdout := "" |}.
Definition blank_host : host :=
  fun _ => Return {| returncode := 0; stdout := String "010" EmptyString |}.

Definition boot : datetime := 1700000000000000.
Definition record_play : CommandRecord :=
  {| action := Some "play"; timestamp := Some 1700000001000; command := None |}.
Definition record_custom : CommandRecord :=
  {| action := Some "custom"; timestamp := Some 1700000001000;
     command := Some "echo hi" |}.

(** * Properties *)

(** ** Arithmetic of the two comparisons *)

Lemma total_seconds_lt_cooldown (d : timedelta) :
  Qltb (total_seconds d) COMMAND_COOLDOWN = true <-> d < 2000000.
Proof.
  unfold Qltb, total_seconds, COMMAND_COOLDOWN, Qle_bool, Qdiv, Qmult, Qinv, inject_Z.
  cbn [Qnum Qden]. rewrite negb_true_iff, Z.leb_gt. simpl. lia.
Qed.

Lemma total_seconds_lt_interval (d : timedelta) :
  Qltb (total_seconds d) MIN_INTERVAL = true <-> d < 500000.
Proof.
  unfold Qltb, total_seconds, MIN_INTERVAL, Qle_bool, Qdiv, Qmult, Qinv, inject_Z.
  cbn [Qnum Qden]. rewrite negb_true_iff, Z.leb_gt. simpl. lia.
Qed.

Lemma cooldown_reflect (d : timedelta) :
  Qltb (total_seconds d) COMMAND_COOLDOWN = bool_decide (d < 2000000).
Proof.
  apply eq_true_iff_eq. rewrite total_seconds_lt_cooldown.
  symmetry. apply bool_decide_eq_true.
Qed.

Lemma interval_reflect (d : timedelta) :
  Qltb (total_seconds d) MIN_INTERVAL = bool_decide (d < 500000).
Proof.
  apply eq_true_iff_eq. rewrite total_seconds_lt_interval.
  symmetry. apply bool_decide_eq_true.
Qed.

(** ** The freshness test *)

Lemma fromtimestamp_ms_representable (t : Z) :
  representable t -> fromtimestamp_ms t = Return (t * 1000).
Proof.
  intros [Hlo Hhi]. unfold fromtimestamp_ms. cbv zeta.
  apply Z.leb_le in Hlo. apply Z.leb_le in Hhi. now rewrite Hlo, Hhi.
Qed.

Lemma fromtimestamp_ms_out_of_range (t : Z) :
  ~ representable t -> exists e, fromtimestamp_ms t = Raise e.
Proof.
  intros Hout. unfold fromtimestamp_ms. cbv zeta.
  destruct (_ <=? t * 1000 + _) eqn:Hlo;
    destruct (t * 1000 + _ <=? DATETIME_MAX) eqn:Hhi; simpl; eauto.
  exfalso. apply Hout. split; [now apply Z.leb_le | now apply Z.leb_le].
Qed.

(** What [is_command_fresh] computes on a non-zero timestamp that
    [fromtimestamp] accepts. *)
Lemma is_command_fresh_nonzero (t : Z) (now : datetime) :
  t <> 0 -> representable t ->
  is_command_fresh (Some t) now = Return (bool_decide (age t now < 2000000)).
Proof.
  intros Hnz Hrep. unfold is_command_fresh, truthy.
  apply Z.eqb_neq in Hnz. rewrite Hnz. simpl.
  rewrite (fromtimestamp_ms_representable t Hrep), cooldown_reflect.
  reflexivity.
Qed.

Lemma is_command_fresh_falsy (timestamp : option Z) (now : datetime) :
  truthy timestamp = false -> is_command_fresh timestamp now = Return false.
Proof. intros H. unfold is_command_fresh. now rewrite H. Qed.

(** A timestamp past the last year of [datetime] makes the test raise. *)
Lemma is_command_fresh_raises (t : Z) (now : datetime) :
  t <> 0 -> ~ representable t -> exists e, is_command_fresh (Some t) now = Raise e.
Proof.
  intros Hnz Hout. unfold is_command_fresh, truthy.
  apply Z.eqb_neq in Hnz. rewrite Hnz. simpl.
  destruct (fromtimestamp_ms_out_of_range t Hout) as [e He].
  exists e. now rewrite He.
Qed.


(** ** The two gates of [process_command] *)

Lemma process_command_not_fresh os data now_fresh now self :
  is_command_fresh (timestamp data) now_fresh = Return false ->
  process_command os data now_fresh now self = skipped self.
Proof.
  intros Hfresh. unfold process_command.
  destruct (is_empty data); [reflexivity |].
  unfold mbind, M_bind, lift. cbn. now rewrite Hfresh.
Qed.

Lemma process_command_raises os data now_fresh now self e :
  is_command_fresh (timestamp data) now_fresh = Raise e ->
  process_command os data now_fresh now self =
  {| emitted := []; value := Raise e; self_after := self |}.
Proof.
  intros Hfresh. unfold process_command.
  destruct (is_empty data) eqn:Hempty.
  - unfold is_empty in Hempty.
    destruct (timestamp data); [destruct (action data); discriminate |].
    discriminate.
  - unfold mbind, M_bind, lift. cbn. now rewrite Hfresh.
Qed.

Lemma fresh_not_empty data now_fresh :
  is_command_fresh (timestamp data) now_fresh = Return true ->
  is_empty data = false.
Proof.
  unfold is_empty. destruct (timestamp data); [now destruct (action data) |].
  discriminate.
Qed.

Lemma process_command_too_soon os data now_fresh now self :
  is_command_fresh (timestamp data) now_fresh = Return true ->
  now - last_command_time self < 500000 ->
  process_command os data now_fresh now self = skipped self.
Proof.
  intros Hfresh Hgap. unfold process_command.
  rewrite (fresh_not_empty _ _ Hfresh).
  unfold mbind, M_bind, lift, get_last_command_time. cbn. rewrite Hfresh. cbn.
  rewrite interval_reflect, bool_decide_eq_true_2 by exact Hgap.
  reflexivity.
Qed.

Lemma process_command_dispatches os data now_fresh now self :
  is_command_fresh (timestamp data) now_fresh = Return true ->
  500000 <= now - last_command_time self ->
  process_command os data now_fresh now self =
  dispatch os data (stamped self now).
Proof.
  intros Hfresh Hgap. unfold process_command.
  rewrite (fresh_not_empty _ _ Hfresh).
  unfold mbind, M_bind, lift, get_last_command_time, set_last_command_time.
  cbn. rewrite Hfresh. cbn.
  rewrite interval_reflect, bool_decide_eq_false_2 by lia.
  cbn. unfold stamped. now destruct (dispatch os data _).
Qed.

Lemma interval_elapsed_spec self now :
  interval_elapsed self now = true <-> 500000 <= now - last_command_time self.
Proof.
  unfold interval_elapsed. rewrite interval_reflect, negb_true_iff.
  rewrite bool_decide_eq_false. lia.
Qed.

Lemma accepted_spec self data now_fresh now :
  accepted self data now_fresh now = true <->
  is_command_fresh (timestamp data) now_fresh = Return true /\
  500000 <= now - last_command_time self.
Proof.
  unfold accepted. rewrite <- interval_elapsed_spec.
  destruct (is_command_fresh (timestamp data) now_fresh) as [[|] | e];
    split; try discriminate; try tauto; intros [Hfresh _]; discriminate.
Qed.

Lemma process_command_accepted os data now_fresh now self :
  accepted self data now_fresh now = true ->
  process_command os data now_fresh now self =
  dispatch os data (stamped self now).
Proof.
  intros [Hfresh Hgap]%accepted_spec. now apply process_command_dispatches.
Qed.

Lemma process_command_not_accepted os data now_fresh now self :
  accepted self data now_fresh now = false ->
  emitted (process_command os data now_fresh now self) = [] /\
  self_after (process_command os data now_fresh now self) = self.
Proof.
  intros Hacc.
  destruct (is_command_fresh (timestamp data) now_fresh) as [[|] | e] eqn:Hfresh.
  - rewrite process_command_too_soon; [now split | assumption |].
    destruct (Z.lt_ge_cases (now - last_command_time self) 500000)
      as [Hlt | Hge]; [exact Hlt |].
    assert (accepted self data now_fresh now = true)
      by now apply accepted_spec.
    congruence.
  - now rewrite process_command_not_fresh.
  - now rewrite (process_command_raises _ _ _ _ _ e).
Qed.

(** ** The registry and the handlers *)

(** The keys of the registry, in the order of lines 168-179. *)
Lemma handlers_dom os :
  dom (handlers os) =
  list_to_set (C := gset string)
    [ "play"; "pause"; "next"; "previous"; "volume_up"; "volume_down";
      "mute"; "lock"; "screenshot"; "browser"; "spotify"; "terminal" ].
Proof. unfold handlers. rewrite dom_list_to_map_L. reflexivity. Qed.

(** The handler bound to each key. *)
Lemma handlers_bindings os :
  handlers os !! "play" = Some (play_pause os) /\
  handlers os !! "pause" = Some (play_pause os) /\
  handlers os !! "next" = Some (next_track os) /\
  handlers os !! "previous" = Some (previous_track os) /\
  handlers os !! "volume_up" = Some (volume_up os) /\
  handlers os !! "volume_down" = Some (volume_down os) /\
  handlers os !! "mute" = Some (mute os) /\
  handlers os !! "lock" = Some (lock_screen os) /\
  handlers os !! "screenshot" = Some (screenshot os) /\
  handlers os !! "browser" = Some (open_browser os) /\
  handlers os !! "spotify" = Some (open_spotify os) /\
  handlers os !! "terminal" = Some (open_terminal os) /\
  handlers os !! "custom" = None.
Proof. repeat split. Qed.

Lemma handlers_recognized os name :
  is_Some (handlers os !! name) <->
  name ∈ RECOGNIZED_ACTIONS /\ name <> "custom".
Proof.
  rewrite <- elem_of_dom, handlers_dom, elem_of_list_to_set.
  unfold RECOGNIZED_ACTIONS. rewrite !elem_of_cons, elem_of_nil.
  split.
  - intros H. repeat (destruct H as [-> | H]; [split; [tauto | discriminate] |]).
    destruct H.
  - intros [H Hne]. tauto.
Qed.

Ltac run_handler :=
  intros self;
  cbv [play_pause next_track previous_track volume_up volume_down mute
       lock_screen screenshot open_browser open_spotify open_terminal
       mbind M_bind subprocess_run print];
  cbn;
  repeat match goal with
         | |- context [match ?r with Return _ => _ | Raise _ => _ end] =>
             destruct r; cbn
         end;
  (split; [reflexivity | eexists; eexists; reflexivity]).

Lemma handlers_call_host_first os name h :
  handlers os !! name = Some h -> calls_host_first h.
Proof.
  intros Hlookup. apply elem_of_list_to_map_2 in Hlookup.
  rewrite !elem_of_cons, elem_of_nil in Hlookup.
  repeat (destruct Hlookup as [Heq | Hlookup];
          [injection Heq as -> ->; run_handler |]).
  destruct Hlookup.
Qed.

(** ** The shell action and the routing *)

Lemma run_custom_outcome os command self :
  run_custom os command self =
  {| emitted := Subprocess (Shell command 10)
                :: custom_report command (os (Shell command 10));
     value := Return tt;
     self_after := self |}.
Proof.
  unfold run_custom, try_except, custom_report.
  cbv [mbind M_bind subprocess_run print mret M_ret]. cbn.
  destruct (os (Shell command 10)) as [r | e]; cbn; [| reflexivity].
  destruct (nonempty (stdout r)); reflexivity.
Qed.

Lemma dispatch_registered os data name h :
  action data = Some name -> handlers os !! name = Some h ->
  dispatch os data = h.
Proof.
  intros Haction Hlookup. unfold dispatch, handler_of.
  rewrite Haction. unfold mbind, option_bind. now rewrite Hlookup.
Qed.

Lemma dispatch_custom os data c :
  action data = Some "custom" -> command data = Some c ->
  dispatch os data = run_custom os c.
Proof.
  intros Haction Hcommand. unfold dispatch, handler_of, custom_command.
  rewrite Haction, Hcommand. reflexivity.
Qed.

Lemma dispatch_unknown os data self :
  handler_of os (action data) = None -> custom_command data = None ->
  dispatch os data self =
  {| emitted := [Print ("❓ Unknown action: " +:+ format_action (action data))];
     value := Return tt;
     self_after := self |}.
Proof.
  intros Hhandler Hcustom. unfold dispatch. now rewrite Hhandler, Hcustom.
Qed.

Lemma custom_command_None data :
  custom_command data = None <->
  action data <> Some "custom" \/ command data = None.
Proof.
  unfold custom_command. case_bool_decide as Haction.
  - split; [now right | intros [Hne | Hc]; [contradiction | exact Hc]].
  - split; [now left | reflexivity].
Qed.

(** The routing never touches the fields of the controller. *)
Lemma dispatch_self_after os data self :
  self_after (dispatch os data self) = self.
Proof.
  unfold dispatch.
  destruct (handler_of os (action data)) as [h |] eqn:Hhandler.
  - unfold handler_of in Hhandler.
    destruct (action data) as [name |]; [| discriminate].
    unfold mbind, option_bind in Hhandler.
    now destruct (handlers_call_host_first os name h Hhandler self).
  - destruct (custom_command data) as [c |]; [| reflexivity].
    now rewrite run_custom_outcome.
Qed.

(** Whatever the routing does, it is seen from outside: a registered handler
    calls the host, the shell action calls the host, and an unknown action
    prints a line. *)
Lemma dispatch_emits os data self :
  emitted (dispatch os data self) <> [].
Proof.
  unfold dispatch.
  destruct (handler_of os (action data)) as [h |] eqn:Hhandler.
  - unfold handler_of in Hhandler.
    destruct (action data) as [name |]; [| discriminate].
    unfold mbind, option_bind in Hhandler.
    destruct (handlers_call_host_first os name h Hhandler self)
      as [_ (i & rest & Hemitted)].
    now rewrite Hemitted.
  - destruct (custom_command data) as [c |]; [| discriminate].
    now rewrite run_custom_outcome.
Qed.

Lemma dispatch_not_skipped os data self self' :
  dispatch os data self <> skipped self'.
Proof.
  intros Heq. apply (dispatch_emits os data self). now rewrite Heq.
Qed.

(** Whatever records arrive, with whatever hosts and clock readings, the
    accepted ones are at least half a second apart, and the first of them at
    least half a second after [last_command_time]. *)
Lemma admitted_stamps_spaced (ds : list delivery) :
  forall self, spaced (last_command_time self) (admitted_stamps self ds).
Proof.
  induction ds as [| d ds IH]; intros self; [exact I |].
  cbn [admitted_stamps]. unfold deliver.
  destruct (accepted self (payload d) (read_fresh d) (read_now d)) eqn:Hacc.
  - cbn [spaced]. split.
    + now apply accepted_spec in Hacc.
    + specialize (IH (self_after (process_command (at_host d) (payload d)
                                    (read_fresh d) (read_now d) self))).
      rewrite process_command_accepted, dispatch_self_after in IH |- *
        by assumption.
      exact IH.
  - destruct (process_command_not_accepted (at_host d) _ _ _ _ Hacc)
      as [_ Hself].
    rewrite Hself. apply IH.
Qed.

(** ** The claims about admission *)

(** C2: two fresh, timestamped records are processed one after the other,
    with any hosts, any actions and any clock readings.  With [gap] the
    reading of the clock at the second record minus [last_command_time] as
    the first one left it, the second record is dropped when [gap] is
    strictly less than half a second, and is routed (and stamped) when
    [gap] is at least half a second, whatever the two actions are.  When the
    first record was admitted, [last_command_time] is its clock reading, so
    that a second record less than half a second later is dropped: two
    admitted records are at least half a second apart. *)
Theorem C2_interval_gate (os1 os2 : host) (d1 d2 : CommandRecord)
    (f1 n1 f2 n2 : datetime) (self : SystemController) :
  is_command_fresh (timestamp d1) f1 = Return true ->
  is_command_fresh (timestamp d2) f2 = Return true ->
  let self1 := self_after (process_command os1 d1 f1 n1 self) in
  let gap := n2 - last_command_time self1 in
  (gap < 500000 -> process_command os2 d2 f2 n2 self1 = skipped self1) /\
  (500000 <= gap ->
   process_command os2 d2 f2 n2 self1 = dispatch os2 d2 (stamped self1 n2) /\
   process_command os2 d2 f2 n2 self1 <> skipped self1) /\
  (500000 <= n1 - last_command_time self ->
   last_command_time self1 = n1 /\
   (n2 - n1 < 500000 -> process_command os2 d2 f2 n2 self1 = skipped self1)).
Proof.
  intros Hfresh1 Hfresh2 self1 gap. repeat split.
  - intros Hgap. now apply process_command_too_soon.
  - now apply process_command_dispatches.
  - rewrite process_command_dispatches by assumption.
    apply dispatch_not_skipped.
  - subst self1.
    rewrite process_command_dispatches, dispatch_self_after by assumption.
    reflexivity.
  - intros Hclose. apply process_command_too_soon; [assumption |].
    subst self1.
    rewrite process_command_dispatches, dispatch_self_after by assumption.
    exact Hclose.
Qed.

(** C4: for every record, host, pair of clock readings and state of the
    controller: when the record is accepted (the freshness test returns
    [True] and the interval has elapsed), [process_command] is the routing
    run from the fields in which [last_command_time] is already the reading
    [now], so that every action starts after the update, and the field holds
    [now], a new value, when [process_command] ends, even by an exception of
    the action; when the record is not accepted, nothing is emitted and the
    fields are left as they were. *)
Theorem C4_last_command_time (os : host) (data : CommandRecord)
    (now_fresh now : datetime) (self : SystemController) :
  let o := process_command os data now_fresh now self in
  (accepted self data now_fresh now = true ->
   o = dispatch os data (stamped self now) /\
   last_command_time (stamped self now) = now /\
   last_command_time (self_after o) = now /\
   last_command_time (self_after o) <> last_command_time self) /\
  (accepted self data now_fresh now = false ->
   emitted o = [] /\ self_after o = self).
Proof.
  intros o. subst o. split.
  - intros Hacc.
    rewrite process_command_accepted, dispatch_self_after by assumption.
    apply accepted_spec in Hacc as [_ Hgap].
    cbn. repeat split; lia.
  - apply process_command_not_accepted.
Qed.


(** C6: for every record with no [timestamp], whatever its other fields,
    the clock readings, the host and the state of the controller, the
    freshness test returns [False] and [process_command] returns at once:
    nothing is emitted and the fields are left as they were. *)
Theorem C6_missing_timestamp (os : host) (a c : option string)
    (now_fresh now : datetime) (self : SystemController) :
  is_command_fresh None now_fresh = Return false /\
  process_command os {| action := a; timestamp := None; command := c |}
    now_fresh now self = skipped self.
Proof.
  split; [reflexivity |]. now apply process_command_not_fresh.
Qed.

(** C9: a record whose [timestamp] is 0 is treated as one with no
    [timestamp]: for every clock reading the freshness test returns [False],
    and [process_command] returns at once, as it does for the same record
    without the field. *)
Theorem C9_zero_timestamp (os : host) (a c : option string)
    (now_fresh now : datetime) (self : SystemController) :
  is_command_fresh (Some 0) now_fresh = Return false /\
  is_command_fresh (Some 0) now_fresh = is_command_fresh None now_fresh /\
  process_command os {| action := a; timestamp := Some 0; command := c |}
    now_fresh now self = skipped self /\
  process_command os {| action := a; timestamp := Some 0; command := c |}
    now_fresh now self =
  process_command os {| action := a; timestamp := None; command := c |}
    now_fresh now self.
Proof.
  repeat split.
  - now apply process_command_not_fresh.
  - now rewrite !process_command_not_fresh.
Qed.

(** C10 (amended): every record whose timestamp lies in the future of the
    clock reading (negative age) passes the freshness test, provided
    [fromtimestamp] converts it, that is, its local date is not past the end
    of the year 9999, the last instant of [datetime], and it is not 0 (as no
    future timestamp is once the clock is at or after the epoch). *)
Theorem C10_future_timestamp_fresh (t : Z) (now : datetime) :
  t <> 0 -> representable t -> age t now < 0 ->
  is_command_fresh (Some t) now = Return true.
Proof.
  intros Hnz Hrep Hfuture.
  rewrite is_command_fresh_nonzero by assumption.
  rewrite bool_decide_eq_true_2; [reflexivity | lia].
Qed.

(** ** The claims about routing *)


(** C5: for every command string, host and state of the controller,
    [run_custom] calls [subprocess.run] once, with the string as the shell
    command and a timeout of 10 seconds; it returns normally whether the
    command completes (with any exit status) or the call raises (the command
    cannot be run, the timeout expires); the fields of the controller are
    untouched; the output of the command goes nowhere but to a console line,
    printed when it is not empty.  A record whose action is ["custom"] and
    that has a [command] is routed to it. *)
Theorem C5_run_custom (os : host) (c : string) (ts : option Z)
    (self : SystemController) :
  let o := run_custom os c self in
  dispatch os {| action := Some "custom"; timestamp := ts; command := Some c |}
    self = o /\
  value o = Return tt /\
  self_after o = self /\
  (forall completed,
      os (Shell c 10) = Return completed ->
      emitted o =
      ([Subprocess (Shell c 10); Print ("⚡ Custom: " +:+ c)]
       ++ (if nonempty (stdout completed)
           then [Print ("   Output: " +:+ strip (stdout completed))]
           else []))%list) /\
  (forall e,
      os (Shell c 10) = Raise e ->
      emitted o =
      [Subprocess (Shell c 10); Print ("❌ Command failed: " +:+ str e)]).
Proof.
  intros o. subst o. rewrite run_custom_outcome. cbn [value self_after emitted].
  repeat split.
  - rewrite (dispatch_custom os _ c) by reflexivity. apply run_custom_outcome.
  - intros completed Hrun. now rewrite Hrun.
  - intros e Hrun. now rewrite Hrun.
Qed.

(** C7: the names that lead to an action are exactly the thirteen of
    [RECOGNIZED_ACTIONS]: for a record whose action is one of them (and, for
    ["custom"], that has a [command]), the first thing the routing does is a
    call of the host; for a record whose action is any other name, the
    routing prints the unknown-action line and does nothing else. *)
Theorem C7_recognized_actions (os : host) (name : string) (ts : option Z)
    (cmd : option string) (self : SystemController) :
  let data := {| action := Some name; timestamp := ts; command := cmd |} in
  (name ∈ RECOGNIZED_ACTIONS -> (name = "custom" -> is_Some cmd) ->
   exists i rest, emitted (dispatch os data self) = Subprocess i :: rest) /\
  (name ∉ RECOGNIZED_ACTIONS ->
   dispatch os data self =
   {| emitted := [Print ("❓ Unknown action: " +:+ name)];
      value := Return tt;
      self_after := self |}).
Proof.
  intros data. split.
  - intros Hin Hpayload.
    destruct (decide (name = "custom")) as [-> | Hne].
    + destruct (Hpayload eq_refl) as [c ->]. subst data.
      rewrite (dispatch_custom os _ c) by reflexivity.
      rewrite run_custom_outcome. eauto.
    + destruct (proj2 (handlers_recognized os name) (conj Hin Hne)) as [h Hh].
      rewrite (dispatch_registered os data name h) by (reflexivity || assumption).
      now destruct (handlers_call_host_first os name h Hh self).
  - intros Hout. apply dispatch_unknown.
    + unfold handler_of. cbn. apply eq_None_not_Some.
      intros Hsome. apply handlers_recognized in Hsome. tauto.
    + apply custom_command_None. left. cbn. intros [= ->].
      apply Hout. unfold RECOGNIZED_ACTIONS. set_solver.
Qed.

(** * Further properties of the code *)

(** ** Freshness as the clock advances, and timestamps out of range *)

(** X1: the freshness test only gets stricter as the clock advances: a
    timestamp that the test rejects at a reading of the clock is rejected at
    every later reading, and one that passes at a reading passed at every
    earlier one. *)
Theorem stale_stays_stale (ts : option Z) (now later : datetime) :
  now <= later ->
  (is_command_fresh ts now = Return false ->
   is_command_fresh ts later = Return false) /\
  (is_command_fresh ts later = Return true ->
   is_command_fresh ts now = Return true).
Proof.
  intros Hle. unfold is_command_fresh.
  destruct (negb (truthy ts)); [split; [trivial | discriminate] |].
  destruct ts as [t |]; [| split; [trivial | discriminate]].
  destruct (fromtimestamp_ms t) as [cmd_time | e];
    [| split; discriminate].
  rewrite !cooldown_reflect. split; intros [= H]; f_equal.
  - apply bool_decide_eq_false in H. apply bool_decide_eq_false. lia.
  - apply bool_decide_eq_true in H. apply bool_decide_eq_true. lia.
Qed.

(** X2: a record whose timestamp is not 0 and is one [fromtimestamp] does
    not convert makes [process_command] raise, whatever its action, the
    host, the clock and the fields: nothing is emitted and the fields are
    left as they were. *)
Theorem process_command_unrepresentable (os : host) (a c : option string)
    (t : Z) (now_fresh now : datetime) (self : SystemController) :
  t <> 0 -> ~ representable t ->
  process_command os {| action := a; timestamp := Some t; command := c |}
    now_fresh now self =
  {| emitted := []; value := Raise TimestampError; self_after := self |}.
Proof.
  intros Hnz Hout. apply process_command_raises. cbn [timestamp].
  unfold is_command_fresh, truthy.
  apply Z.eqb_neq in Hnz. rewrite Hnz. cbn [negb].
  unfold fromtimestamp_ms. cbv zeta.
  destruct (_ <=? t * 1000 + _) eqn:Hlo;
    destruct (t * 1000 + _ <=? DATETIME_MAX) eqn:Hhi; try reflexivity.
  exfalso. apply Hout. split; now apply Z.leb_le.
Qed.

(** ** What a call of [process_command] shows and leaves *)

Lemma deliver_self_after (self : SystemController) (d : delivery) :
  self_after (deliver self d) =
  if accepted self (payload d) (read_fresh d) (read_now d)
  then stamped self (read_now d)
  else self.
Proof.
  unfold deliver.
  destruct (accepted self (payload d) (read_fresh d) (read_now d)) eqn:Hacc.
  - now rewrite process_command_accepted, dispatch_self_after.
  - now destruct (process_command_not_accepted (at_host d) _ _ _ _ Hacc).
Qed.

(** X3: after any sequence of calls of [process_command], whatever the
    records, hosts and clock readings, [running] is as it was and
    [last_command_time] is the clock reading of the last record accepted
    (the value it had when none was); it never moves backwards. *)
Theorem after_deliveries_last_stamp (ds : list delivery) :
  forall self : SystemController,
    after_deliveries self ds =
    {| last_command_time :=
         default (last_command_time self) (last (admitted_stamps self ds));
       running := running self |} /\
    last_command_time self <= last_command_time (after_deliveries self ds).
Proof.
  induction ds as [| d ds IH]; intros self.
  - cbn. split; [now destruct self | lia].
  - cbn [after_deliveries admitted_stamps]. rewrite deliver_self_after.
    destruct (accepted self (payload d) (read_fresh d) (read_now d)) eqn:Hacc.
    + destruct (IH (stamped self (read_now d))) as [Hstate Hmono].
      apply accepted_spec in Hacc as [_ Hgap]. split.
      * rewrite Hstate, last_cons. cbn [stamped last_command_time running].
        now destruct (last (admitted_stamps _ ds)).
      * cbn [stamped last_command_time] in Hmono. lia.
    + apply IH.
Qed.

(** X5: a call of [process_command] emits nothing exactly when the record
    is not accepted: a rejection is silent, and an accepted record always
    shows, by a call of the host or a console line. *)
Theorem process_command_silent_iff (os : host) (data : CommandRecord)
    (now_fresh now : datetime) (self : SystemController) :
  emitted (process_command os data now_fresh now self) = [] <->
  accepted self data now_fresh now = false.
Proof.
  split.
  - intros Hsilent.
    destruct (accepted self data now_fresh now) eqn:Hacc; [| reflexivity].
    rewrite process_command_accepted in Hsilent by assumption.
    now apply dispatch_emits in Hsilent.
  - intros Hacc.
    now destruct (process_command_not_accepted os _ _ _ _ Hacc).
Qed.

(** ** The handlers of the registry *)

(** A script of calls goes as far as the first call that raises. *)
Lemma run_calls_outcome (os : host) (line : string) (self : SystemController)
    (calls : list invocation) :
  self_after (run_calls os calls line self) = self /\
  match value (run_calls os calls line self) with
  | Return _ =>
      emitted (run_calls os calls line self) =
      (map Subprocess calls ++ [Print line])%list /\
      Forall (completes os) calls
  | Raise e =>
      exists before i,
        emitted (run_calls os calls line self) =
        map Subprocess (before ++ [i])%list /\
        Forall (completes os) before /\
        os i = Raise e /\
        i ∈ calls
  end.
Proof.
  induction calls as [| i rest IH].
  - cbn. split; [reflexivity |]. split; [reflexivity | constructor].
  - cbn [run_calls]. unfold mbind, M_bind, subprocess_run.
    cbn [value emitted self_after].
    destruct (os i) as [completed | e] eqn:Hi.
    + cbn [value emitted self_after]. destruct IH as [Hself IH].
      split; [exact Hself |].
      destruct (value (run_calls os rest line self)) as [[] | e].
      * destruct IH as [Hemitted Hall]. split.
        -- now rewrite Hemitted.
        -- constructor; [now exists completed | exact Hall].
      * destruct IH as (before & j & Hemitted & Hall & Hj & Hin).
        exists (i :: before), j. repeat split.
        -- now rewrite Hemitted.
        -- constructor; [now exists completed | exact Hall].
        -- exact Hj.
        -- now right.
    + split; [reflexivity |]. exists [], i.
      repeat split; [constructor | exact Hi | now left].
Qed.

Ltac script_shape :=
  split; [discriminate |];
  split; [repeat constructor; eexists; reflexivity | reflexivity].

(** Every handler of the registry is such a script, of one or two programs
    run without a shell. *)
Lemma handlers_scripts (os : host) (name : string) (h : M unit) :
  handlers os !! name = Some h ->
  exists calls line,
    calls <> [] /\ Forall is_exec calls /\ h = run_calls os calls line.
Proof.
  intros Hlookup. apply elem_of_list_to_map_2 in Hlookup.
  rewrite !elem_of_cons, elem_of_nil in Hlookup.
  repeat (destruct Hlookup as [Heq | Hlookup];
          [injection Heq as -> ->;
           first [ eexists [Exec _], _; script_shape
                 | eexists [Exec _; Exec _], _; script_shape ]
          |]).
  destruct Hlookup.
Qed.

(** X8: a handler of the registry prints its console line exactly when all
    its programs were run to completion, whatever their exit status: in that
    case the events are the calls, in order, then the line.  When a call
    raises, the handler stops there: the events are the calls made so far,
    nothing is printed, and the exception is the one of the last call.  In
    both cases the fields of the controller are untouched. *)
Theorem handler_reports_after_calls (os : host) (name : string) (h : M unit)
    (self : SystemController) :
  handlers os !! name = Some h ->
  self_after (h self) = self /\
  match value (h self) with
  | Return _ =>
      exists calls line,
        emitted (h self) = (map Subprocess calls ++ [Print line])%list /\
        Forall (completes os) calls
  | Raise e =>
      exists before i,
        emitted (h self) = map Subprocess (before ++ [i])%list /\
        Forall (completes os) before /\
        os i = Raise e
  end.
Proof.
  intros Hlookup.
  destruct (handlers_scripts os name h Hlookup) as (calls & line & _ & _ & ->).
  destruct (run_calls_outcome os line self calls) as [Hself Hshape].
  split; [exact Hself |].
  destruct (value (run_calls os calls line self)) as [[] | e].
  - now exists calls, line.
  - destruct Hshape as (before & i & Hemitted & Hall & Hi & _).
    now exists before, i.
Qed.

(** X9: [lock_screen] tries [gnome-screensaver-command] first.  When that
    call raises (the program is not installed, say), [loginctl] is not run:
    the exception leaves [lock_screen] after the one call.  When it
    completes, with any exit status, [loginctl lock-session] is the next
    call. *)
Theorem lock_screen_second_call (os : host) (self : SystemController) :
  (forall e,
      os (Exec ["gnome-screensaver-command"; "-l"]) = Raise e ->
      lock_screen os self =
      {| emitted := [Subprocess (Exec ["gnome-screensaver-command"; "-l"])];
         value := Raise e;
         self_after := self |}) /\
  (forall completed,
      os (Exec ["gnome-screensaver-command"; "-l"]) = Return completed ->
      exists rest,
        emitted (lock_screen os self) =
        Subprocess (Exec ["gnome-screensaver-command"; "-l"])
        :: Subprocess (Exec ["loginctl"; "lock-session"]) :: rest).
Proof.
  unfold lock_screen, mbind, M_bind, subprocess_run, print.
  cbn [value emitted self_after]. split.
  - intros e He. now rewrite He.
  - intros completed Hc. rewrite Hc. cbn [value emitted self_after].
    destruct (os (Exec ["loginctl"; "lock-session"])); cbn; eauto.
Qed.

Lemma run_calls_calls (os : host) (line : string) (self : SystemController)
    (i : invocation) (calls : list invocation) :
  Subprocess i ∈ emitted (run_calls os calls line self) -> i ∈ calls.
Proof.
  induction calls as [| j rest IH].
  - cbn. rewrite elem_of_cons, elem_of_nil. intros [[=] | []].
  - cbn [run_calls]. unfold mbind, M_bind, subprocess_run.
    cbn [value emitted self_after].
    destruct (os j); cbn [value emitted self_after app];
      rewrite !elem_of_cons.
    + intros [[= ->] | Hin]; [now left | right; now apply IH].
    + rewrite elem_of_nil. intros [[= ->] | []]. now left.
Qed.

Lemma custom_command_Some (data : CommandRecord) (c : string) :
  custom_command data = Some c ->
  action data = Some "custom" /\ command data = Some c.
Proof.
  unfold custom_command. case_bool_decide; [now split | discriminate].
Qed.

(** What the routing does, case by case. *)
Lemma dispatch_cases (os : host) (data : CommandRecord) :
  (exists name h calls line,
      action data = Some name /\ handlers os !! name = Some h /\
      Forall is_exec calls /\
      dispatch os data = run_calls os calls line) \/
  (exists c,
      action data = Some "custom" /\ command data = Some c /\
      dispatch os data = run_custom os c) \/
  dispatch os data =
  print ("❓ Unknown action: " +:+ format_action (action data)).
Proof.
  unfold dispatch.
  destruct (handler_of os (action data)) as [h |] eqn:Hhandler.
  - left. unfold handler_of in Hhandler.
    destruct (action data) as [name |]; [| discriminate].
    unfold mbind, option_bind in Hhandler.
    destruct (handlers_scripts os name h Hhandler)
      as (calls & line & _ & Hexec & ->).
    now exists name, (run_calls os calls line), calls, line.
  - destruct (custom_command data) as [c |] eqn:Hcustom.
    + right. left. exists c.
      destruct (custom_command_Some data c Hcustom). now repeat split.
    + right. now right.
Qed.

(** ** What [process_command] never does *)

(** X6: the only shell command a call of [process_command] can run is the
    [command] of the record itself, with the timeout of 10 seconds, and only
    when the record is accepted and its action is ["custom"]: no other
    action, and no rejected record, reaches a shell. *)
Theorem shell_only_for_custom (os : host) (data : CommandRecord)
    (now_fresh now : datetime) (self : SystemController)
    (cmd : string) (limit : Z) :
  Subprocess (Shell cmd limit)
    ∈ emitted (process_command os data now_fresh now self) ->
  accepted self data now_fresh now = true /\
  action data = Some "custom" /\
  command data = Some cmd /\
  limit = 10.
Proof.
  intros Hin.
  destruct (accepted self data now_fresh now) eqn:Hacc.
  - split; [reflexivity |].
    rewrite process_command_accepted in Hin by assumption.
    destruct (dispatch_cases os data)
      as [(name & h & calls & line & _ & _ & Hexec & Heq)
         | [(c & Haction & Hcommand & Heq) | Heq]];
      rewrite Heq in Hin.
    + apply run_calls_calls in Hin.
      rewrite Forall_forall in Hexec.
      destruct (Hexec _ Hin) as [argv [=]].
    + rewrite run_custom_outcome in Hin. cbn [emitted] in Hin.
      apply elem_of_cons in Hin as [[= -> ->] | Hin]; [now repeat split |].
      unfold custom_report in Hin.
      destruct (os (Shell c 10)) as [completed | e];
        [destruct (nonempty (stdout completed)) |];
        rewrite ?elem_of_cons, elem_of_nil in Hin;
        intuition discriminate.
    + cbn in Hin. rewrite elem_of_cons, elem_of_nil in Hin.
      intuition discriminate.
  - destruct (process_command_not_accepted os _ _ _ _ Hacc) as [Hsilent _].
    rewrite Hsilent in Hin. now apply elem_of_nil in Hin.
Qed.

(** X7: an exception leaves [process_command] in two cases only.  Either
    [fromtimestamp] raised in the freshness test: then nothing was emitted
    and the fields are as they were.  Or the record was accepted, its action
    is a key of the registry, and a program call of that handler raised:
    then the controller is already stamped.  The shell action and the
    unknown-action branch never raise. *)
Theorem process_command_raise_origin (os : host) (data : CommandRecord)
    (now_fresh now : datetime) (self : SystemController) (e : exn) :
  value (process_command os data now_fresh now self) = Raise e ->
  (is_command_fresh (timestamp data) now_fresh = Raise e /\
   emitted (process_command os data now_fresh now self) = [] /\
   self_after (process_command os data now_fresh now self) = self) \/
  (accepted self data now_fresh now = true /\
   self_after (process_command os data now_fresh now self) = stamped self now /\
   exists name h i,
     action data = Some name /\ handlers os !! name = Some h /\
     os i = Raise e /\
     Subprocess i ∈ emitted (process_command os data now_fresh now self)).
Proof.
  intros Hraise.
  destruct (accepted self data now_fresh now) eqn:Hacc.
  - right. split; [reflexivity |].
    rewrite process_command_accepted in Hraise |- * by assumption.
    split; [apply dispatch_self_after |].
    destruct (dispatch_cases os data)
      as [(name & h & calls & line & Haction & Hlookup & _ & Heq)
         | [(c & _ & _ & Heq) | Heq]];
      rewrite Heq in Hraise |- *.
    + destruct (run_calls_outcome os line (stamped self now) calls)
        as [_ Hshape].
      rewrite Hraise in Hshape.
      destruct Hshape as (before & i & Hemitted & _ & Hi & _).
      exists name, h, i. repeat split; try assumption.
      rewrite Hemitted, map_app. apply elem_of_app. right. now left.
    + now rewrite run_custom_outcome in Hraise.
    + discriminate.
  - left.
    destruct (is_command_fresh (timestamp data) now_fresh)
      as [[|] | e'] eqn:Hfresh.
    + destruct (process_command_not_accepted os _ _ _ _ Hacc) as [Hs Hself].
      rewrite process_command_too_soon in Hraise; [discriminate | assumption |].
      destruct (Z.lt_ge_cases (now - last_command_time self) 500000)
        as [Hlt | Hge]; [exact Hlt |].
      assert (accepted self data now_fresh now = true)
        by now apply accepted_spec.
      congruence.
    + now rewrite process_command_not_fresh in Hraise.
    + rewrite (process_command_raises _ _ _ _ _ e') in Hraise |- * by assumption.
      injection Hraise as ->. now repeat split.
Qed.

(** ** The shell action *)

(** X10: the exit status of the command never changes what [run_custom]
    does: on two hosts where the command completes with the same output, the
    events, the result and the fields are the same, whatever the two exit
    statuses. *)
Theorem run_custom_ignores_returncode (os1 os2 : host) (c : string)
    (self : SystemController) (r1 r2 : CompletedProcess) :
  os1 (Shell c 10) = Return r1 ->
  os2 (Shell c 10) = Return r2 ->
  stdout r1 = stdout r2 ->
  run_custom os1 c self = run_custom os2 c self.
Proof.
  intros H1 H2 Hout. rewrite !run_custom_outcome, H1, H2.
  unfold custom_report. now rewrite Hout.
Qed.

Lemma lstrip_all_space (s : string) :
  all_space s = true -> lstrip s = EmptyString.
Proof.
  induction s as [| c s IH]; [reflexivity |].
  cbn [all_space lstrip]. intros [Hc Hs]%andb_prop.
  rewrite Hc. now apply IH.
Qed.

(** X11: the test of line 142 is on the output as captured, the line
    printed on line 143 is the stripped output: when the command prints
    white space only (an empty line, say), [run_custom] prints an [Output:]
    line with nothing after it. *)
Theorem run_custom_blank_output (os : host) (c : string)
    (self : SystemController) (completed : CompletedProcess) :
  os (Shell c 10) = Return completed ->
  stdout completed <> EmptyString ->
  all_space (stdout completed) = true ->
  emitted (run_custom os c self) =
  [Subprocess (Shell c 10); Print ("⚡ Custom: " +:+ c); Print "   Output: "].
Proof.
  intros Hrun Hne Hspace. rewrite run_custom_outcome, Hrun.
  cbn [emitted custom_report].
  destruct (stdout completed) as [| ch rest] eqn:Hout; [contradiction |].
  cbn [nonempty]. unfold strip.
  now rewrite (lstrip_all_space _ Hspace).
Qed.

(** ** Startup *)

(** X13: [setup_firebase] returns only when the credentials file exists and
    neither [credentials.Certificate] nor [initialize_app] raises; in every
    other case it ends the process with exit status 1, never with an
    exception.  When the file is missing the library is not called at all,
    and the exit is not taken for a Firebase error: the events are the test
    of the path and the two lines about the file. *)
Theorem setup_firebase_exit (env : backing) :
  snd (setup_firebase env) =
  (if connects env then Done tt else Stopped (SystemExit 1)) /\
  (os_path_exists env FIREBASE_CREDENTIALS_FILE = false ->
   fst (setup_firebase env) =
   [ PathExists FIREBASE_CREDENTIALS_FILE;
     Host (Print "❌ Error: firebase-credentials.json not found!");
     Host (Print "📥 Download it from Firebase Console > Project Settings > Service Accounts") ]) /\
  (connects env = true ->
   fst (setup_firebase env) =
   [ PathExists FIREBASE_CREDENTIALS_FILE;
     Certificate FIREBASE_CREDENTIALS_FILE;
     InitializeApp DATABASE_URL;
     Host (Print "✅ Connected to Firebase!") ]).
Proof.
  unfold setup_firebase, connects, try_except_Exception, mbind, P_bind,
    mret, P_ret, call, console, sys_exit.
  cbn [fst snd].
  destruct (os_path_exists env FIREBASE_CREDENTIALS_FILE);
    cbn [negb fst snd andb app];
    [| repeat split; discriminate].
  destruct (credentials_Certificate env FIREBASE_CREDENTIALS_FILE);
    cbn [fst snd andb app];
    [| repeat split; discriminate].
  destruct (initialize_app env DATABASE_URL);
    cbn [fst snd andb app]; repeat split; discriminate.
Qed.

(** X14: the constructor returns a controller only when [setup_firebase]
    gets through, and then the controller is the one of [init]: [running]
    set, [last_command_time] ten seconds before the clock reading of line
    38, taken before Firebase is contacted; the two signal handlers are
    installed last.  Otherwise the process exits with status 1 and no
    signal handler has been installed. *)
Theorem constructor_connected (env : backing) (now : datetime) :
  (connects env = true ->
   __init__ env now =
   ((fst (setup_firebase env)
     ++ [SignalHandler SIGINT; SignalHandler SIGTERM])%list,
    Done (init now))) /\
  (connects env = false ->
   __init__ env now = (fst (setup_firebase env), Stopped (SystemExit 1)) /\
   forall s, SignalHandler s ∉ fst (__init__ env now)).
Proof.
  destruct (setup_firebase_exit env) as (Hend & _ & _).
  unfold __init__, mbind, P_bind, mret, P_ret, setup_signal_handlers.
  cbv zeta. split; intros Hc; rewrite Hc in Hend; rewrite Hend;
    cbn [fst snd].
  - now rewrite app_nil_r.
  - split; [reflexivity |]. intros s.
    unfold setup_firebase, connects, try_except_Exception, mbind, P_bind,
      mret, P_ret, call, console, sys_exit in *.
    cbn [fst snd] in *.
    destruct (os_path_exists env FIREBASE_CREDENTIALS_FILE);
      cbn [negb fst snd andb app] in *;
      [destruct (credentials_Certificate env FIREBASE_CREDENTIALS_FILE);
       cbn [fst snd andb app] in *;
       [destruct (initialize_app env DATABASE_URL);
        cbn [fst snd andb app] in * |] |];
      try discriminate;
      rewrite ?elem_of_cons, elem_of_nil; intuition discriminate.
Qed.

Ltac install_cases os :=
  unfold install_dependencies, mbind, P_bind, mret, P_ret, run, console;
  cbn [fst snd];
  destruct (os (Exec ["which"; "playerctl"])) as [which1 | e1] eqn:Hwhich1;
    cbn [fst snd app];
    [destruct (returncode which1 =? 0) eqn:Hstatus1; cbn [negb fst snd app];
     [| destruct (os (Exec ["sudo"; "apt-get"; "update"; "-qq"]))
          as [update | e2] eqn:Hupdate;
        cbn [fst snd app];
        [destruct (os (Exec ["sudo"; "apt-get"; "install"; "-y"; "-qq";
                             "playerctl"]))
           as [install | e3] eqn:Hinstall;
         cbn [fst snd app] |]];
     try (destruct (os (Exec ["which"; "pactl"])) as [which2 | e4] eqn:Hwhich2;
          cbn [fst snd app];
          [destruct (returncode which2 =? 0) eqn:Hstatus2;
           cbn [negb fst snd app] |])
    |].

(** X15: [install_dependencies] runs [sudo] only after [which playerctl]
    has completed with a non-zero exit status, and only for the two
    [apt-get] commands that install [playerctl]; nothing is ever installed
    for [pactl]. *)
Theorem install_dependencies_sudo (os : host) (argv : list string) :
  Host (Subprocess (Exec ("sudo" :: argv))) ∈ fst (install_dependencies os) ->
  (exists completed,
      os (Exec ["which"; "playerctl"]) = Return completed /\
      returncode completed <> 0) /\
  (argv = ["apt-get"; "update"; "-qq"] \/
   argv = ["apt-get"; "install"; "-y"; "-qq"; "playerctl"]).
Proof.
  install_cases os; rewrite ?elem_of_cons, elem_of_nil; intros Hin;
    repeat (destruct Hin as [Heq | Hin]; [try discriminate |]);
    try contradiction;
    try (injection Heq as <-;
         (split; [exists which1; split;
                  [reflexivity | now apply Z.eqb_neq] |]);
         first [now left | now right]).
Qed.

(** X16: once [which playerctl] has completed with a non-zero status,
    [install_dependencies] prints that [playerctl] is installed as soon as
    the two [apt-get] commands have completed, whatever their exit status:
    the status of neither is looked at, and [which playerctl] is not run
    again. *)
Theorem install_dependencies_reports_installed (os : host)
    (missing update install : CompletedProcess) :
  os (Exec ["which"; "playerctl"]) = Return missing ->
  returncode missing <> 0 ->
  os (Exec ["sudo"; "apt-get"; "update"; "-qq"]) = Return update ->
  os (Exec ["sudo"; "apt-get"; "install"; "-y"; "-qq"; "playerctl"])
  = Return install ->
  exists rest,
    fst (install_dependencies os) =
    ([ Host (Print "🔧 Checking dependencies...");
      Host (Subprocess (Exec ["which"; "playerctl"]));
      Host (Print "📦 Installing playerctl...");
      Host (Subprocess (Exec ["sudo"; "apt-get"; "update"; "-qq"]));
      Host (Subprocess
              (Exec ["sudo"; "apt-get"; "install"; "-y"; "-qq"; "playerctl"]));
      Host (Print "✅ playerctl installed");
      Host (Subprocess (Exec ["which"; "pactl"])) ] ++ rest)%list.
Proof.
  intros Hmissing Hstatus Hupdate Hinstall.
  apply Z.eqb_neq in Hstatus.
  unfold install_dependencies, mbind, P_bind, mret, P_ret, run, console.
  cbn [fst snd]. rewrite Hmissing. cbn [fst snd]. rewrite Hstatus.
  cbn [negb fst snd]. rewrite Hupdate. cbn [fst snd]. rewrite Hinstall.
  cbn [fst snd app].
  destruct (os (Exec ["which"; "pactl"])) as [which2 | e]; cbn [fst snd app];
    [destruct (returncode which2 =? 0); cbn [negb fst snd app] |];
    eexists; reflexivity.
Qed.

(** X17: [install_dependencies] never ends the process by itself: it
    returns whenever every call of [subprocess.run] returns, whatever the
    exit statuses (a missing [playerctl] or [pactl] does not stop startup),
    and otherwise it ends by the exception of a call it made. *)
Theorem install_dependencies_ending (os : host) :
  ((forall i, completes os i) -> snd (install_dependencies os) = Done tt) /\
  match snd (install_dependencies os) with
  | Done _ => True
  | Stopped (SystemExit _) => False
  | Stopped (Uncaught e) =>
      exists i,
        os i = Raise e /\
        Host (Subprocess i) ∈ fst (install_dependencies os)
  end.
Proof.
  split.
  - intros Hall.
    assert (Hno : forall i e, os i <> Raise e).
    { intros i e He. destruct (Hall i) as [c Hc]. congruence. }
    install_cases os; try reflexivity;
      match goal with H : os _ = Raise _ |- _ => now apply Hno in H end.
  - install_cases os; try exact I;
      eexists; (split; [eassumption |]);
      rewrite ?elem_of_cons; tauto.
Qed.

(** ** The rate of accepted records *)

Lemma spaced_span (rest : list datetime) :
  forall first previous : datetime,
    spaced previous (first :: rest) ->
    500000 * Z.of_nat (length rest) <= default first (last rest) - first.
Proof.
  induction rest as [| next rest IH]; intros first previous [_ Hrest].
  - cbn. lia.
  - pose proof (IH next first Hrest) as Hspan.
    destruct Hrest as [Hgap _].
    rewrite last_cons. cbn [length].
    destruct (last rest) as [final |]; cbn [from_option id] in *; lia.
Qed.

(** X4: however many records arrive and however fast, with whatever hosts
    and clock readings, two records accepted one after the other are stamped
    at least half a second apart; so the stamps of [k + 1] accepted records
    span at least [k] half seconds. *)
Theorem admitted_rate_limit (ds : list delivery) (self : SystemController) :
  spaced (last_command_time self) (admitted_stamps self ds) /\
  forall first rest,
    admitted_stamps self ds = first :: rest ->
    500000 * Z.of_nat (length rest) <= default first (last rest) - first.
Proof.
  pose proof (admitted_stamps_spaced ds self) as Hspaced.
  split; [exact Hspaced |].
  intros first rest Heq. rewrite Heq in Hspaced.
  exact (spaced_span rest first _ Hspaced).
Qed.

(** ** The output line of the shell action *)







End Controller.

(** * The claims at concrete inputs *)

(** The examples run on a host whose local time is UTC. *)



Lemma C2_interval_gate_witness :
  let self1 :=
    self_after (process_command 0 quiet_host record_play
                  (boot + 1000100) (boot + 1000200) (init boot)) in
  let gap := (boot + 1100200) - last_command_time self1 in
  (gap < 500000 ->
   process_command 0 failing_host record_custom (boot + 1100100)
     (boot + 1100200) self1 = skipped self1) /\
  (500000 <= gap ->
   process_command 0 failing_host record_custom (boot + 1100100)
     (boot + 1100200) self1 =
   dispatch failing_host record_custom (stamped self1 (boot + 1100200)) /\
   process_command 0 failing_host record_custom (boot + 1100100)
     (boot + 1100200) self1 <> skipped self1) /\
  (500000 <= (boot + 1000200) - last_command_time (init boot) ->
   last_command_time self1 = boot + 1000200 /\
   ((boot + 1100200) - (boot + 1000200) < 500000 ->
    process_command 0 failing_host record_custom (boot + 1100100)
      (boot + 1100200) self1 = skipped self1)).
Proof.
  apply (C2_interval_gate 0 quiet_host failing_host record_play record_custom
           (boot + 1000100) (boot + 1000200) (boot + 1100100) (boot + 1100200)
           (init boot)); reflexivity.
Defined.



(** C10, as stated, fails far enough in the future: a timestamp of 10^15
    milliseconds (the year 33658) is ahead of a clock in November 2023, and
    the test does not return [True]: [fromtimestamp] raises. *)
Lemma C10_counterexample_year_33658 :
  age 1000000000000000 boot < 0 /\
  is_command_fresh 0 (Some 1000000000000000) boot <> Return true /\
  is_command_fresh 0 (Some 1000000000000000) boot = Raise TimestampError.
Proof.
  split; [reflexivity |]. split; [discriminate | reflexivity].
Qed.

Lemma C10_future_timestamp_fresh_witness :
  is_command_fresh 0 (Some 253402300799999) boot = Return true.
Proof.
  apply (C10_future_timestamp_fresh 0 253402300799999 boot).
  - discriminate.
  - unfold representable, DATETIME_MIN, DATETIME_MAX, max_fold_seconds. lia.
  - unfold age, boot. lia.
Defined.

(** * Scenarios *)

(** A fresh [play] record on a controller just started: the play/pause
    handler runs once and the controller is stamped. *)
Example scenario_play :
  process_command 0 quiet_host record_play (boot + 1000100) (boot + 1000200)
    (init boot) =
  {| emitted := [Subprocess (Exec ["playerctl"; "play-pause"]);
                 Print "⏯️  Play/Pause"];
     value := Return tt;
     self_after := stamped (init boot) (boot + 1000200) |}.
Proof. reflexivity. Qed.

(** [volume_up] and, 100 ms later, [volume_down]: only the first is
    accepted. *)
Example scenario_volume_burst :
  admitted_stamps 0 (init boot)
    [ {| at_host := quiet_host;
         payload := {| action := Some "volume_up";
                       timestamp := Some 1700000001000; command := None |};
         read_fresh := boot + 1000100; read_now := boot + 1000200 |};
      {| at_host := quiet_host;
         payload := {| action := Some "volume_down";
                       timestamp := Some 1700000001100; command := None |};
         read_fresh := boot + 1100100; read_now := boot + 1100200 |} ] =
  [boot + 1000200].
Proof. reflexivity. Qed.

(** A [lock] record delivered three seconds after its timestamp is dropped. *)
Example scenario_stale_lock :
  process_command 0 quiet_host
    {| action := Some "lock"; timestamp := Some 1700000001000; command := None |}
    (boot + 4000000) (boot + 4000100) (init boot) =
  skipped (init boot).
Proof. reflexivity. Qed.

(** A command that exits with status 1 and prints [hi]: reported, no
    exception. *)
Example scenario_custom_nonzero :
  process_command 0 echo_host record_custom (boot + 1000100) (boot + 1000200)
    (init boot) =
  {| emitted := [Subprocess (Shell "echo hi" 10); Print "⚡ Custom: echo hi";
                 Print "   Output: hi"];
     value := Return tt;
     self_after := stamped (init boot) (boot + 1000200) |}.
Proof. reflexivity. Qed.

(** A registered handler whose program is missing: the exception leaves
    [process_command], after the controller has been stamped. *)
Example scenario_missing_program :
  process_command 0 failing_host record_play (boot + 1000100) (boot + 1000200)
    (init boot) =
  {| emitted := [Subprocess (Exec ["playerctl"; "play-pause"])];
     value := Raise (HostError "FileNotFoundError" "No such file or directory");
     self_after := stamped (init boot) (boot + 1000200) |}.
Proof. reflexivity. Qed.

(** A timestamp in the year 33658: [fromtimestamp] raises, nothing runs and
    the controller is as before. *)
Example scenario_far_future :
  process_command 0 quiet_host
    {| action := Some "play"; timestamp := Some 1000000000000000;
       command := None |}
    boot (boot + 100) (init boot) =
  {| emitted := []; value := Raise TimestampError; self_after := init boot |}.
Proof. reflexivity. Qed.

(** * The further properties at concrete inputs *)

Lemma stale_stays_stale_witness :
  (is_command_fresh 0 (Some 1700000001000) (boot + 4000000) = Return false ->
   is_command_fresh 0 (Some 1700000001000) (boot + 5000000) = Return false) /\
  (is_command_fresh 0 (Some 1700000001000) (boot + 5000000) = Return true ->
   is_command_fresh 0 (Some 1700000001000) (boot + 4000000) = Return true).
Proof.
  apply (stale_stays_stale 0 (Some 1700000001000) (boot + 4000000)
           (boot + 5000000)).
  unfold boot. lia.
Defined.

Lemma process_command_unrepresentable_witness :
  process_command 0 quiet_host
    {| action := Some "play"; timestamp := Some 1000000000000000;
       command := None |}
    boot (boot + 100) (init boot) =
  {| emitted := []; value := Raise TimestampError; self_after := init boot |}.
Proof.
  apply (process_command_unrepresentable 0 quiet_host (Some "play") None
           1000000000000000 boot (boot + 100) (init boot)).
  - discriminate.
  - unfold representable, DATETIME_MAX. intros [_ Hmax]. lia.
Defined.

Lemma shell_only_for_custom_witness :
  accepted 0 (init boot) record_custom (boot + 1000100) (boot + 1000200) = true /\
  action record_custom = Some "custom" /\
  command record_custom = Some "echo hi" /\
  10 = 10.
Proof.
  apply (shell_only_for_custom 0 echo_host record_custom (boot + 1000100)
           (boot + 1000200) (init boot) "echo hi" 10).
  apply list_elem_of_here.
Defined.

Lemma process_command_raise_origin_witness :
  (is_command_fresh 0 (timestamp record_play) (boot + 1000100) =
   Raise (HostError "FileNotFoundError" "No such file or directory") /\
   emitted (process_command 0 failing_host record_play (boot + 1000100)
              (boot + 1000200) (init boot)) = [] /\
   self_after (process_command 0 failing_host record_play (boot + 1000100)
                 (boot + 1000200) (init boot)) = init boot) \/
  (accepted 0 (init boot) record_play (boot + 1000100) (boot + 1000200) = true /\
   self_after (process_command 0 failing_host record_play (boot + 1000100)
                 (boot + 1000200) (init boot)) =
   stamped (init boot) (boot + 1000200) /\
   exists name h i,
     action record_play = Some name /\
     handlers failing_host !! name = Some h /\
     failing_host i =
     Raise (HostError "FileNotFoundError" "No such file or directory") /\
     Subprocess i
       ∈ emitted (process_command 0 failing_host record_play (boot + 1000100)
                    (boot + 1000200) (init boot))).
Proof.
  apply (process_command_raise_origin 0 failing_host record_play
           (boot + 1000100) (boot + 1000200) (init boot)).
  reflexivity.
Defined.

Lemma handler_reports_after_calls_witness :
  self_after (lock_screen quiet_host (init boot)) = init boot /\
  match value (lock_screen quiet_host (init boot)) with
  | Return _ =>
      exists calls line,
        emitted (lock_screen quiet_host (init boot)) =
        (map Subprocess calls ++ [Print line])%list /\
        Forall (completes quiet_host) calls
  | Raise e =>
      exists before i,
        emitted (lock_screen quiet_host (init boot)) =
        map Subprocess (before ++ [i])%list /\
        Forall (completes quiet_host) before /\
        quiet_host i = Raise e
  end.
Proof.
  apply (handler_reports_after_calls quiet_host "lock"
           (lock_screen quiet_host) (init boot)).
  reflexivity.
Defined.

Lemma run_custom_ignores_returncode_witness :
  run_custom quiet_host "false" (init boot) =
  run_custom mute_failure_host "false" (init boot).
Proof.
  apply (run_custom_ignores_returncode quiet_host mute_failure_host "false"
           (init boot) {| returncode := 0; stdout := "" |}
           {| returncode := 1; stdout := "" |});
    reflexivity.
Defined.

Lemma run_custom_blank_output_witness :
  emitted (run_custom blank_host "echo" (init boot)) =
  [Subprocess (Shell "echo" 10); Print "⚡ Custom: echo"; Print "   Output: "].
Proof.
  apply (run_custom_blank_output blank_host "echo" (init boot)
           {| returncode := 0; stdout := String "010" EmptyString |}).
  - reflexivity.
  - discriminate.
  - reflexivity.
Defined.


Lemma install_dependencies_sudo_witness :
  (exists completed,
      bare_host (Exec ["which"; "playerctl"]) = Return completed /\
      returncode completed <> 0) /\
  (["apt-get"; "update"; "-qq"] = ["apt-get"; "update"; "-qq"] \/
   ["apt-get"; "update"; "-qq"] = ["apt-get"; "install"; "-y"; "-qq"; "playerctl"]).
Proof.
  apply (install_dependencies_sudo bare_host ["apt-get"; "update"; "-qq"]).
  do 3 apply list_elem_of_further. apply list_elem_of_here.
Defined.

Lemma install_dependencies_reports_installed_witness :
  exists rest,
    fst (install_dependencies bare_host) =
    ([ Host (Print "🔧 Checking dependencies...");
       Host (Subprocess (Exec ["which"; "playerctl"]));
       Host (Print "📦 Installing playerctl...");
       Host (Subprocess (Exec ["sudo"; "apt-get"; "update"; "-qq"]));
       Host (Subprocess
               (Exec ["sudo"; "apt-get"; "install"; "-y"; "-qq"; "playerctl"]));
       Host (Print "✅ playerctl installed");
       Host (Subprocess (Exec ["which"; "pactl"])) ] ++ rest)%list.
Proof.
  apply (install_dependencies_reports_installed bare_host
           {| returncode := 1; stdout := "" |}
           {| returncode := 0; stdout := "" |}
           {| returncode := 0; stdout := "" |}).
  - reflexivity.
  - discriminate.
  - reflexivity.
  - reflexivity.
Defined.
